(** * opentelemetry.instrumentation.aws_lambda

    A shallow embedding of
    [opentelemetry/instrumentation/aws_lambda/__init__.py]: the parent
    context resolver ([_determine_parent_context] and
    [_default_event_context_extractor]), the module-level [flush_timeout]
    and the decorator [otel_handler] with its inner [otel_wrapper].

    Python values are an inductive type, exceptions are an outcome type,
    and the observable calls into the logging and tracing libraries are
    recorded, in program order, in a trace carried by a small
    writer-and-error monad. *)

From stdpp Require Import gmap strings list.
From Stdlib Require Import ZArith Ascii String.

Set Warnings "-register-all".

Open Scope string_scope.
Open Scope Z_scope.

(** ** Python values *)

(** The values an invocation can carry.  A Lambda event is what the runtime
    decodes from JSON ([PyNone], [PyBool], [PyInt], [PyStr], [PyList],
    [PyDict] with string keys).  [PyObj] is an instance of a plain class,
    given by its attributes: it has no [__getitem__].  A dict is kept as
    an association list in insertion order; lookup takes the first
    binding of a key. *)
Inductive PyVal : Type :=
| PyNone
| PyBool (b : bool)
| PyInt (n : Z)
| PyStr (s : string)
| PyList (items : list PyVal)
| PyDict (entries : list (string * PyVal))
| PyObj (attrs : list (string * PyVal)).

(** Exceptions: the built-in classes the module can meet, and [Raised] for
    any other exception, kept with its type name and message. *)
Inductive PyExn : Type :=
| TypeError
| KeyError
| IndexError
| AttributeError
| ValueError
| Raised (type_name message : string).

Inductive Outcome (A : Type) : Type :=
| Return (a : A)
| Raise (e : PyExn).
Arguments Return {A} a.
Arguments Raise {A} e.

Fixpoint assoc {A : Type} (k : string) (l : list (string * A)) : option A :=
  match l with
  | [] => None
  | (k', v) :: rest => if String.eqb k k' then Some v else assoc k rest
  end.

(** [obj[key]] for a string [key]: a dict raises [KeyError] on a missing
    key; every other value here either has no [__getitem__] or (list,
    str) refuses a string index: [TypeError]. *)
Definition getitem (obj : PyVal) (key : string) : Outcome PyVal :=
  match obj with
  | PyDict entries =>
      match assoc key entries with
      | Some v => Return v
      | None => Raise KeyError
      end
  | _ => Raise TypeError
  end.

(** [obj.name]: only [PyObj] carries user attributes. *)
Definition getattr (obj : PyVal) (name : string) : Outcome PyVal :=
  match obj with
  | PyObj attrs =>
      match assoc name attrs with
      | Some v => Return v
      | None => Raise AttributeError
      end
  | _ => Raise AttributeError
  end.

(** [args[i]] on the positional-argument tuple. *)
Definition tuple_index (args : list PyVal) (i : nat) : Outcome PyVal :=
  match nth_error args i with
  | Some v => Return v
  | None => Raise IndexError
  end.

(** [sep.join(parts)] *)
Fixpoint str_join (sep : string) (parts : list string) : string :=
  match parts with
  | [] => ""
  | [p] => p
  | p :: rest => p ++ sep ++ str_join sep rest
  end.

(** ** The process environment *)

(** [os.environ]; [os.environ.get(k)] is the lookup [env !! k], with
    [None] for an unset variable. *)
Abbreviation Env := (gmap string string).

(** Truth value of [os.environ.get(k)]: [None] and the empty string are
    false. *)
Definition truthy_env (v : option string) : bool :=
  match v with
  | Some s => negb (String.eqb s "")
  | None => false
  end.

Definition opt_str (v : option string) : PyVal :=
  match v with
  | Some s => PyStr s
  | None => PyNone
  end.

(** ** Trace contexts (opentelemetry.context, opentelemetry.trace) *)

Record SpanContext : Type := mkSpanContext {
  trace_id : N;
  span_id : N;
  is_remote : bool;
  trace_flags : N
}.

(** [TraceFlags.sampled]: bit 0 of the flags. *)
Definition sampled (flags : N) : bool := N.testbit flags 0.

Definition INVALID_SPAN_CONTEXT : SpanContext :=
  mkSpanContext 0 0 false 0.

(** What a context can hold under a key: a span (given by its span
    context) or some other value. *)
Inductive CtxVal : Type :=
| CtxSpan (sc : SpanContext)
| CtxOther (v : string).

(** [Context] is a [dict] from string keys to objects. *)
Abbreviation Context := (gmap string CtxVal).

(** Truth value of a context: that of a dict, false exactly when empty. *)
Definition truthy_context (c : Context) : bool :=
  bool_decide (c ≠ ∅).

Inductive SpanKind : Type := INTERNAL | SERVER | CLIENT | PRODUCER | CONSUMER.

(** ** Observable calls *)

Inductive Effect : Type :=
| LogDebug (message : string)
| StartSpan (name : string) (parent : Context) (kind : SpanKind)
| SetAttribute (key : string) (value : PyVal)
| CallHandler (args : list PyVal) (kwargs : list (string * PyVal))
| EndSpan
| ForceFlush (timeout : Z).

(** A computation: the calls it made, in order, and how it ended. *)
Record M (A : Type) : Type := Run {
  trace : list Effect;
  outcome : Outcome A
}.
Arguments Run {A} trace outcome.
Arguments trace {A} m.
Arguments outcome {A} m.

Definition ret {A : Type} (a : A) : M A := Run [] (Return a).

Definition bind {A B : Type} (m : M A) (k : A -> M B) : M B :=
  match outcome m with
  | Return a => Run (trace m ++ trace (k a)) (outcome (k a))
  | Raise e => Run (trace m) (Raise e)
  end.

Definition emit (e : Effect) : M unit := Run [e] (Return tt).

Definition lift {A : Type} (o : Outcome A) : M A := Run [] o.

(** [try: body  except (TypeError, KeyError): handler]. *)
Definition try_except_TypeError_KeyError {A : Type} (body handler : M A) : M A :=
  match outcome body with
  | Raise TypeError | Raise KeyError =>
      Run (trace body ++ trace handler) (outcome handler)
  | _ => body
  end.

(** Run [cleanup] when [body] is left, by return or by exception; the
    outcome of [body] goes through. *)
Definition on_exit {A : Type} (body : M A) (cleanup : Effect) : M A :=
  Run (trace body ++ [cleanup]) (outcome body).

#[export] Instance M_ret : MRet M := @ret.
#[export] Instance M_bind : MBind M := fun A B k m => bind m k.

(** ** The tracing library, as the module sees it *)

(** Modelled from the spec: the constant [SpanAttributes.FAAS_EXECUTION]
    of the semantic-conventions package, which the module imports; the
    spec lists the emitted key as [faas.execution]. *)
Definition FAAS_EXECUTION : string := "faas.execution".

(** The module calls into the OpenTelemetry API and SDK and treats them as
    given.  [OtelApi] collects what it uses of them:
    - [SPAN_KEY], the key under which a context holds its current span;
    - [TRACE_HEADER_KEY], the header name of the X-Ray propagator;
    - [AwsXRayFormat_extract], [AwsXRayFormat().extract(carrier)];
    - [textmap_extract], [get_global_textmap().extract(carrier)];
    - [is_recording], whether the span that [tracer] starts with a given
      name, parent and kind records;
    - [tracer_provider_force_flush], the [force_flush] method of the
      provider that [get_tracer_provider()] returns.

    The X-Ray carrier the module builds is always a dict with one string
    entry, and the X-Ray propagator answers it with a context.  The
    text-map propagator gets whatever the event holds under ["headers"],
    and it reads the carrier with [carrier.get]: on a carrier it cannot
    read it raises, so its result is an outcome.  The SDK provider has a
    [force_flush] that reports success by a boolean; the provider the API
    installs by default has no such method, and reading it raises
    [AttributeError]. *)
Class OtelApi : Type := {
  SPAN_KEY : string;
  TRACE_HEADER_KEY : string;
  AwsXRayFormat_extract : PyVal -> Context;
  textmap_extract : PyVal -> Outcome Context;
  is_recording : string -> Context -> SpanKind -> bool;
  tracer_provider_force_flush : option (Z -> bool)
}.

Section Resolver.
Context `{api : OtelApi}.

(** [get_current_span(context).get_span_context()]: the span stored
    under [SPAN_KEY], the invalid span when there is none or the value
    is not a span. *)
Definition get_current_span (c : Context) : SpanContext :=
  match c !! SPAN_KEY with
  | Some (CtxSpan sc) => sc
  | _ => INVALID_SPAN_CONTEXT
  end.

Definition extraction_failed_message : string :=
  "Extracting context from Lambda Event failed: either enable X-Ray active tracing or configure API Gateway to trigger this Lambda function as a pure proxy. Otherwise, generated spans will have an invalid (empty) parent context.".

Definition _default_event_context_extractor (lambda_event : PyVal) : M Context :=
  headers ← try_except_TypeError_KeyError
               (lift (getitem lambda_event "headers"))
               (emit (LogDebug extraction_failed_message);;
                mret (PyDict []));
  lift (textmap_extract headers).

Definition _determine_parent_context (env : Env) (lambda_event : PyVal) : M Context :=
  let parent_context : option Context := None in
  let xray_env_var := env !! "_X_AMZN_TRACE_ID" in
  let parent_context :=
    match xray_env_var with
    | Some v =>
        if truthy_env xray_env_var
        then Some (AwsXRayFormat_extract (PyDict [(TRACE_HEADER_KEY, PyStr v)]))
        else parent_context
    | None => parent_context
    end in
  match parent_context with
  | Some c =>
      if truthy_context c && sampled (trace_flags (get_current_span c))
      then mret c
      else _default_event_context_extractor lambda_event
  | None => _default_event_context_extractor lambda_event
  end.

End Resolver.

(** ** Module load: [flush_timeout] *)

(** What [int] needs of the interpreter besides the text: the limit on
    the number of digits ([sys.get_int_max_str_digits()], 4300 by
    default where the limit exists, 0 for no limit), and its reading of
    text that is not plain ASCII, which goes by the Unicode tables of
    digits and blanks. *)
Class Interpreter : Type := {
  int_max_str_digits : nat;
  int_of_unicode : string -> option Z
}.

Definition is_ascii (s : string) : bool :=
  forallb (fun c => (N_of_ascii c <? 128)%N) (list_ascii_of_string s).

(** The blanks [int] drops around ASCII text: tab, line feed, vertical
    tab, form feed, carriage return and space. *)
Definition is_space (a : ascii) : bool :=
  let n := N_of_ascii a in
  (((9 <=? n) && (n <=? 13)) || (n =? 32))%N.

Definition digit_value (a : ascii) : option Z :=
  let n := N_of_ascii a in
  if ((48 <=? n) && (n <=? 57))%N then Some (Z.of_N n - 48) else None.

Fixpoint lstrip (l : list ascii) : list ascii :=
  match l with
  | c :: rest => if is_space c then lstrip rest else l
  | [] => []
  end.

Definition strip (l : list ascii) : list ascii :=
  rev (lstrip (rev (lstrip l))).

(** [after_digit] tells whether the previous character was a digit: an
    underscore and the end of the text are accepted only then. *)
Fixpoint digits (after_digit : bool) (acc : Z) (l : list ascii) : option Z :=
  match l with
  | [] => if after_digit then Some acc else None
  | c :: rest =>
      match digit_value c with
      | Some d => digits true (10 * acc + d) rest
      | None =>
          if Ascii.eqb c "_" && after_digit
          then digits false acc rest
          else None
      end
  end.

Definition digit_count (l : list ascii) : nat :=
  List.length (List.filter (fun c => match digit_value c with
                                | Some _ => true
                                | None => false
                                end) l).

(** The digit limit: checked only above 640 digits, and off when the
    limit is 0. *)
Definition over_limit `{Interpreter} (count : nat) : bool :=
  ((640 <? count) && (0 <? int_max_str_digits)
   && (int_max_str_digits <? count))%nat.

Definition limited_digits `{Interpreter} (l : list ascii) : option Z :=
  if over_limit (digit_count l) then None else digits false 0 l.

(** [int(s)] for ASCII text, base 10: blanks around it are dropped, one
    sign is allowed, then decimal digits, where a single underscore may
    stand between two digits. *)
Definition int_of_ascii `{Interpreter} (s : string) : option Z :=
  match strip (list_ascii_of_string s) with
  | "+"%char :: rest => limited_digits rest
  | "-"%char :: rest => Z.opp <$> limited_digits rest
  | l => limited_digits l
  end.

(** [int(s)], with [None] for [ValueError]. *)
Definition int_of_str `{Interpreter} (s : string) : option Z :=
  if is_ascii s then int_of_ascii s else int_of_unicode s.

(** [int(v)] on the values [os.environ.get(name, 30000)] can give. *)
Definition py_int `{Interpreter} (v : PyVal) : Outcome Z :=
  match v with
  | PyInt n => Return n
  | PyBool b => Return (if b then 1 else 0)
  | PyStr s =>
      match int_of_str s with
      | Some n => Return n
      | None => Raise ValueError
      end
  | _ => Raise TypeError
  end.

(** [os.environ.get(name, default)] *)
Definition environ_get (env : Env) (name : string) (default : PyVal) : PyVal :=
  match env !! name with
  | Some s => PyStr s
  | None => default
  end.

(** The module-level names whose value is fixed when the module is
    imported. *)
Record ModuleState : Type := mkModuleState {
  flush_timeout : Z
}.

(** Executing the module body in environment [env]: the assignment to
    [flush_timeout]; an exception here makes the import fail. *)
Definition module_load `{Interpreter} (env : Env) : Outcome ModuleState :=
  match py_int (environ_get env "OTEL_INSTRUMENTATION_AWS_LAMBDA_FLUSH_TIMEOUT" (PyInt 30000)) with
  | Return n => Return (mkModuleState n)
  | Raise e => Raise e
  end.

(** ** The decorator *)

(** A function object: its [__module__] and [__name__] attributes, which
    Python lets a program reassign, and what calling it gives.  Function
    objects live in a store indexed by reference, and a closure holds the
    reference, not a copy. *)
Record Function : Type := mkFunction {
  __module__ : string;
  __name__ : string;
  __call__ : list PyVal -> list (string * PyVal) -> Outcome PyVal
}.

Abbreviation Ref := nat.
Abbreviation Store := (Ref -> Function).

(** [f.__name__ = name] *)
Definition set_name (st : Store) (f : Ref) (name : string) : Store :=
  fun r => if Nat.eqb r f
           then mkFunction (__module__ (st r)) name (__call__ (st r))
           else st r.

Record Span : Type := mkSpan { recording : bool }.

Section Wrapper.
Context `{api : OtelApi}.

(** [tracer_provider.force_flush(flush_timeout)] in [otel_wrapper] below
    first reads the method from the provider, which raises
    [AttributeError] when there is none, then calls it; the boolean it
    returns is dropped. *)

(** [with tracer.start_as_current_span(name=..., context=..., kind=...) as span: body]
    The span is ended when the block is left, by return or by exception,
    and an exception of the block is not swallowed. *)
Definition start_as_current_span {A : Type} (name : string) (context : Context)
    (kind : SpanKind) (body : Span -> M A) : M A :=
  emit (StartSpan name context kind);;
  on_exit (body (mkSpan (is_recording name context kind))) EndSpan.

Definition otel_wrapper (loaded : ModuleState) (orig_handler : Ref)
    (st : Store) (env : Env)
    (args : list PyVal) (kwargs : list (string * PyVal)) : M PyVal :=
  let orig_handler_name :=
    str_join "." [__module__ (st orig_handler); __name__ (st orig_handler)] in
  lambda_event ← lift (tuple_index args 0);
  parent_context ← _determine_parent_context env lambda_event;
  result ← start_as_current_span orig_handler_name parent_context SERVER
    (fun span =>
       (if recording span then
          lambda_context ← lift (tuple_index args 1);
          aws_request_id ← lift (getattr lambda_context "aws_request_id");
          emit (SetAttribute FAAS_EXECUTION aws_request_id);;
          invoked_function_arn ← lift (getattr lambda_context "invoked_function_arn");
          emit (SetAttribute "faas.id" invoked_function_arn);;
          emit (SetAttribute "faas.name"
                  (opt_str (env !! "AWS_LAMBDA_FUNCTION_NAME")));;
          emit (SetAttribute "faas.version"
                  (opt_str (env !! "AWS_LAMBDA_FUNCTION_VERSION")))
        else mret tt);;
       emit (CallHandler args kwargs);;
       lift (__call__ (st orig_handler) args kwargs));
  force_flush ← lift (match tracer_provider_force_flush with
                      | Some method => Return method
                      | None => Raise AttributeError
                      end);
  emit (ForceFlush (flush_timeout loaded));;
  mret result.

(** [otel_handler(orig_handler)] returns [otel_wrapper] closed over the
    reference [orig_handler] and the loaded module; the store and the
    environment are those of the time of each call. *)
Definition otel_handler (loaded : ModuleState) (orig_handler : Ref)
  : Store -> Env -> list PyVal -> list (string * PyVal) -> M PyVal :=
  otel_wrapper loaded orig_handler.

End Wrapper.

(** ** Reading a trace *)

Definition is_SetAttribute (e : Effect) : bool :=
  match e with SetAttribute _ _ => true | _ => false end.

Definition is_CallHandler (e : Effect) : bool :=
  match e with CallHandler _ _ => true | _ => false end.

Definition is_ForceFlush (e : Effect) : bool :=
  match e with ForceFlush _ => true | _ => false end.

Definition is_StartSpan (e : Effect) : bool :=
  match e with StartSpan _ _ _ => true | _ => false end.

Definition is_LogDebug (e : Effect) : bool :=
  match e with LogDebug _ => true | _ => false end.

Definition set_attribute_calls (t : list Effect) : list Effect :=
  List.filter is_SetAttribute t.

Definition handler_calls (t : list Effect) : list Effect :=
  List.filter is_CallHandler t.

Definition flush_calls (t : list Effect) : list Effect :=
  List.filter is_ForceFlush t.

Definition started_spans (t : list Effect) : list Effect :=
  List.filter is_StartSpan t.

(** The names of the spans started, in order. *)
Fixpoint span_names (t : list Effect) : list string :=
  match t with
  | [] => []
  | StartSpan name _ _ :: rest => name :: span_names rest
  | _ :: rest => span_names rest
  end.

(** The part of a trace that comes before the first call of the handler
    (the whole trace when the handler is never called). *)
Fixpoint before_handler (t : list Effect) : list Effect :=
  match t with
  | [] => []
  | CallHandler _ _ :: _ => []
  | e :: rest => e :: before_handler rest
  end.

(** The part of a trace that comes after the first call of the handler. *)
Fixpoint after_handler (t : list Effect) : list Effect :=
  match t with
  | [] => []
  | CallHandler _ _ :: rest => rest
  | _ :: rest => after_handler rest
  end.

(** Whether a span started in the trace reports that it is recording. *)
Definition span_records `{api : OtelApi} (t : list Effect) : bool :=
  existsb (fun e => match e with
                    | StartSpan name parent kind => is_recording name parent kind
                    | _ => false
                    end) t.

Definition is_str (v : PyVal) : bool :=
  match v with PyStr _ => true | _ => false end.

(** The values passed to [set_attribute], in order. *)
Fixpoint attribute_values (t : list Effect) : list PyVal :=
  match t with
  | [] => []
  | SetAttribute _ v :: rest => v :: attribute_values rest
  | _ :: rest => attribute_values rest
  end.

(** Whether [obj.name] can be read. *)
Definition exposes (obj : PyVal) (name : string) : bool :=
  match getattr obj name with
  | Return _ => true
  | Raise _ => false
  end.

(** ** A concrete setting for the examples *)

Module Demo.

Definition xray_sampled : string :=
  "Root=1-5759e988-bd862e3fe1be46a994272793;Parent=53995c3f42cd8ad8;Sampled=1".
Definition xray_unsampled : string :=
  "Root=1-5759e988-bd862e3fe1be46a994272793;Parent=53995c3f42cd8ad8;Sampled=0".

Definition xray_context (flags : N) : Context :=
  {[ "current-span" := CtxSpan (mkSpanContext 0x5759e988 0x53995c3f true flags) ]}.

Definition header_context : Context :=
  {[ "current-span" := CtxSpan (mkSpanContext 0x0af76519 0xb7ad6b71 true 1) ]}.

(** A tracing library that knows two X-Ray headers and one [traceparent]
    header, reads only dict carriers, records exactly under a sampled
    parent, and has the SDK provider. *)
#[export] Instance api : OtelApi := {|
  SPAN_KEY := "current-span";
  TRACE_HEADER_KEY := "X-Amzn-Trace-Id";
  AwsXRayFormat_extract := fun carrier =>
    match getitem carrier "X-Amzn-Trace-Id" with
    | Return (PyStr s) =>
        if String.eqb s xray_sampled then xray_context 1
        else if String.eqb s xray_unsampled then xray_context 0
        else ∅
    | _ => ∅
    end;
  textmap_extract := fun carrier =>
    match carrier with
    | PyDict entries =>
        match assoc "traceparent" entries with
        | Some (PyStr _) => Return header_context
        | _ => Return ∅
        end
    | _ => Raise AttributeError
    end;
  is_recording := fun _ parent _ =>
    match parent !! "current-span" with
    | Some (CtxSpan sc) => sampled (trace_flags sc)
    | _ => false
    end;
  tracer_provider_force_flush := Some (fun _ => true)
|}.

(** The same library with the provider the API installs by default: its
    spans do not record and it has no [force_flush]. *)
Definition api_default_provider : OtelApi := {|
  SPAN_KEY := SPAN_KEY;
  TRACE_HEADER_KEY := TRACE_HEADER_KEY;
  AwsXRayFormat_extract := AwsXRayFormat_extract;
  textmap_extract := textmap_extract;
  is_recording := fun _ _ _ => false;
  tracer_provider_force_flush := None
|}.

(** An interpreter with the default digit limit.  The texts of the
    examples are ASCII, so its reading of other text is never asked. *)
#[export] Instance interpreter : Interpreter := {|
  int_max_str_digits := 4300;
  int_of_unicode := fun _ => None
|}.

Definition event_with_headers : PyVal :=
  PyDict [("headers", PyDict [("traceparent", PyStr "00-0af76519-b7ad6b71-01")])].

Definition event_without_headers : PyVal :=
  PyDict [("body", PyStr "{}")].

Definition lambda_context : PyVal :=
  PyObj [("aws_request_id", PyStr "c6af9ac6-7b61-11e6-9a41-93e8deadbeef");
         ("invoked_function_arn",
          PyStr "arn:aws:lambda:us-east-1:123456789012:function:demo")].

(** A context object with a request id and no ARN. *)
Definition context_without_arn : PyVal :=
  PyObj [("aws_request_id", PyStr "c6af9ac6-7b61-11e6-9a41-93e8deadbeef")].

Definition env_xray_sampled : Env :=
  {[ "_X_AMZN_TRACE_ID" := xray_sampled ]}.

Definition env_lambda : Env :=
  <[ "AWS_LAMBDA_FUNCTION_NAME" := "demo" ]>
    (<[ "AWS_LAMBDA_FUNCTION_VERSION" := "$LATEST" ]> ∅).

(** [def lambda_handler(event, context): return "200 OK"] in module
    [app], at reference 0; a handler that raises, at reference 1; a
    handler that takes no argument, at reference 2. *)
Definition store : Store := fun r =>
  match r with
  | 0%nat => mkFunction "app" "lambda_handler" (fun _ _ => Return (PyStr "200 OK"))
  | 1%nat => mkFunction "app" "failing_handler" (fun _ _ => Raise (Raised "RuntimeError" "boom"))
  | _ => mkFunction "app" "ping"
           (fun args _ => match args with [] => Return (PyStr "pong") | _ => Raise TypeError end)
  end.

Definition loaded : ModuleState := mkModuleState 30000.

End Demo.

(** ** The resolver rule, in the words of the specification *)

Section ResolverRule.
Context `{api : OtelApi}.

(** The event's ["headers"] field, the empty mapping when the event has
    none. *)
Definition event_headers (lambda_event : PyVal) : PyVal :=
  match getitem lambda_event "headers" with
  | Return headers => headers
  | Raise _ => PyDict []
  end.

(** The context extracted from [_X_AMZN_TRACE_ID] with the X-Ray format,
    when the variable is present and non-empty and the current span of
    that context is sampled. *)
Definition sampled_xray_context (env : Env) : option Context :=
  match env !! "_X_AMZN_TRACE_ID" with
  | Some v =>
      let c := AwsXRayFormat_extract (PyDict [(TRACE_HEADER_KEY, PyStr v)]) in
      if negb (String.eqb v "") && sampled (trace_flags (get_current_span c))
      then Some c
      else None
  | None => None
  end.

(** Sampled X-Ray wins; otherwise the event's headers decide, through
    the text-map extraction and with its outcome. *)
Definition sampled_wins_first (env : Env) (lambda_event : PyVal)
  : Outcome Context :=
  match sampled_xray_context env with
  | Some c => Return c
  | None => textmap_extract (event_headers lambda_event)
  end.

End ResolverRule.

(** The argument list meets what the attribute block reads: a second
    positional argument with both context fields. *)
Definition context_ok (args : list PyVal) : bool :=
  match args with
  | _ :: lambda_context :: _ =>
      exposes lambda_context "aws_request_id"
      && exposes lambda_context "invoked_function_arn"
  | _ => false
  end.

(** ** The wrapper, in parts *)

(** The span name the wrapper computes from the store of a call. *)
Definition handler_name (st : Store) (orig_handler : Ref) : string :=
  __module__ (st orig_handler) ++ "." ++ __name__ (st orig_handler).

(** The block guarded by [span.is_recording()], on its own. *)
Definition attribute_block (is_recording : bool) (env : Env)
    (args : list PyVal) : M unit :=
  if is_recording then
    lambda_context ← lift (tuple_index args 1);
    aws_request_id ← lift (getattr lambda_context "aws_request_id");
    emit (SetAttribute FAAS_EXECUTION aws_request_id);;
    invoked_function_arn ← lift (getattr lambda_context "invoked_function_arn");
    emit (SetAttribute "faas.id" invoked_function_arn);;
    emit (SetAttribute "faas.name"
            (opt_str (env !! "AWS_LAMBDA_FUNCTION_NAME")));;
    emit (SetAttribute "faas.version"
            (opt_str (env !! "AWS_LAMBDA_FUNCTION_VERSION")))
  else mret tt.

(** How a call that reached the handler ends: as the handler ends, but a
    return needs the provider's [force_flush] to be there. *)
Definition through_flush `{api : OtelApi} (call : Outcome PyVal) : Outcome PyVal :=
  match call, tracer_provider_force_flush with
  | Return _, None => Raise AttributeError
  | _, _ => call
  end.

(** The flush calls that follow a handler call. *)
Definition flush_after `{api : OtelApi} (loaded : ModuleState)
    (call : Outcome PyVal) : list Effect :=
  match call, tracer_provider_force_flush with
  | Return _, Some _ => [ForceFlush (flush_timeout loaded)]
  | _, _ => []
  end.

(** What the wrapper does after the attribute block. *)
Definition rest_of_call `{api : OtelApi} (loaded : ModuleState)
    (call : Outcome PyVal) (args : list PyVal) (kwargs : list (string * PyVal))
    (block : Outcome unit) : list Effect :=
  match block with
  | Return _ => CallHandler args kwargs :: EndSpan :: flush_after loaded call
  | Raise _ => [EndSpan]
  end.

Definition timeout_variable : string :=
  "OTEL_INSTRUMENTATION_AWS_LAMBDA_FLUSH_TIMEOUT".

Ltac run_binds :=
  unfold mbind, M_bind, bind;
  cbn [lift outcome trace emit mret M_ret ret app].

(** ** More readers *)

Definition is_EndSpan (e : Effect) : bool :=
  match e with EndSpan => true | _ => false end.

Definition span_ends (t : list Effect) : list Effect :=
  List.filter is_EndSpan t.

Definition log_calls (t : list Effect) : list Effect :=
  List.filter is_LogDebug t.

(** * Properties *)

(** ** Traces *)

Lemma filter_LogDebug_nil (p : Effect -> bool) (t : list Effect) :
  (forall m, p (LogDebug m) = false) ->
  Forall (fun e => is_LogDebug e = true) t ->
  List.filter p t = [].
Proof.
  intros Hp Ht. induction Ht as [|e t He _ IH]; [reflexivity|].
  destruct e; try discriminate. simpl. now rewrite Hp.
Qed.

Lemma before_handler_app (t1 t2 : list Effect) args kwargs :
  handler_calls t1 = [] ->
  before_handler (t1 ++ CallHandler args kwargs :: t2) = t1.
Proof.
  induction t1 as [|e t1 IH]; intros H; [reflexivity|].
  destruct e; simpl in *; try discriminate; now rewrite IH.
Qed.

Lemma after_handler_app (t1 t2 : list Effect) args kwargs :
  handler_calls t1 = [] ->
  after_handler (t1 ++ CallHandler args kwargs :: t2) = t2.
Proof.
  induction t1 as [|e t1 IH]; intros H; [reflexivity|].
  destruct e; simpl in *; try discriminate; now rewrite IH.
Qed.

Lemma before_handler_none (t : list Effect) :
  handler_calls t = [] -> before_handler t = t.
Proof.
  induction t as [|e t IH]; intros H; [reflexivity|].
  destruct e; simpl in *; try discriminate; now rewrite IH.
Qed.

Lemma span_names_app (t1 t2 : list Effect) :
  span_names (t1 ++ t2) = (span_names t1 ++ span_names t2)%list.
Proof.
  induction t1 as [|e t1 IH]; [reflexivity|].
  destruct e; simpl; now rewrite IH.
Qed.

Lemma attribute_values_app (t1 t2 : list Effect) :
  attribute_values (t1 ++ t2) = (attribute_values t1 ++ attribute_values t2)%list.
Proof.
  induction t1 as [|e t1 IH]; [reflexivity|].
  destruct e; simpl; now rewrite IH.
Qed.

Lemma span_names_LogDebug (t : list Effect) :
  Forall (fun e => is_LogDebug e = true) t -> span_names t = [].
Proof.
  induction 1 as [|e t He _ IH]; [reflexivity|].
  destruct e; try discriminate. exact IH.
Qed.

Lemma attribute_values_LogDebug (t : list Effect) :
  Forall (fun e => is_LogDebug e = true) t -> attribute_values t = [].
Proof.
  induction 1 as [|e t He _ IH]; [reflexivity|].
  destruct e; try discriminate. exact IH.
Qed.

Lemma getattr_raises (obj : PyVal) (name : string) (e : PyExn) :
  getattr obj name = Raise e -> e = AttributeError.
Proof.
  destruct obj; simpl; try congruence.
  destruct (assoc name attrs); congruence.
Qed.

Lemma exposes_false (obj : PyVal) (name : string) :
  exposes obj name = false -> getattr obj name = Raise AttributeError.
Proof.
  unfold exposes. destruct (getattr obj name) eqn:E; [discriminate|].
  intros _. now rewrite (getattr_raises _ _ _ E).
Qed.

Lemma exposes_true (obj : PyVal) (name : string) :
  exposes obj name = true -> exists v, getattr obj name = Return v.
Proof.
  unfold exposes. destruct (getattr obj name) eqn:E; [eauto|discriminate].
Qed.

(** ** The resolver *)

Section ResolverFacts.
Context `{api : OtelApi}.

(** A context whose current span is sampled holds that span, so as a dict
    it is not empty. *)
Lemma sampled_context_truthy (c : Context) :
  sampled (trace_flags (get_current_span c)) = true ->
  truthy_context c = true.
Proof.
  unfold get_current_span, truthy_context. intros H.
  apply bool_decide_eq_true. intros ->.
  rewrite lookup_empty in H. discriminate H.
Qed.

Lemma default_extractor_run (lambda_event : PyVal) :
  _default_event_context_extractor lambda_event =
  Run (match getitem lambda_event "headers" with
       | Return _ => []
       | Raise _ => [LogDebug extraction_failed_message]
       end)
      (textmap_extract (event_headers lambda_event)).
Proof.
  unfold _default_event_context_extractor, event_headers.
  destruct lambda_event;
    try (cbn; destruct (textmap_extract (PyDict [])); reflexivity).
  cbn. destruct (assoc "headers" entries) as [h|]; cbn;
    destruct (textmap_extract _); reflexivity.
Qed.

Lemma determine_parent_context_trace (env : Env) (lambda_event : PyVal) :
  Forall (fun e => is_LogDebug e = true)
         (trace (_determine_parent_context env lambda_event)).
Proof.
  assert (D : Forall (fun e => is_LogDebug e = true)
                (trace (_default_event_context_extractor lambda_event))).
  { rewrite default_extractor_run. simpl.
    destruct (getitem lambda_event "headers"); repeat constructor. }
  unfold _determine_parent_context.
  destruct (env !! "_X_AMZN_TRACE_ID") as [v|]; [|exact D].
  destruct (truthy_env (Some v)); [|exact D].
  destruct (_ && _); [constructor|exact D].
Qed.

Lemma determine_parent_context_outcome (env : Env) (lambda_event : PyVal) :
  outcome (_determine_parent_context env lambda_event) =
  sampled_wins_first env lambda_event.
Proof.
  unfold _determine_parent_context, sampled_wins_first, sampled_xray_context.
  destruct (env !! "_X_AMZN_TRACE_ID") as [v|];
    [|now rewrite default_extractor_run].
  simpl. destruct (negb (String.eqb v "")); simpl;
    [|now rewrite default_extractor_run].
  destruct (sampled _) eqn:S.
  - now rewrite (sampled_context_truthy _ S).
  - rewrite andb_false_r. now rewrite default_extractor_run.
Qed.

(** C1: the resolved parent follows the sampled-wins-first rule.  When
    [_X_AMZN_TRACE_ID] is present and non-empty and the current span of
    the context extracted from it with the X-Ray format is sampled, the
    resolver returns that context whatever the event holds; otherwise it
    ends as the extraction by the global text-map format from the event's
    ["headers"] mapping ends: with the context extracted, or with the
    exception the propagator raises on a carrier it cannot read. *)
Theorem determine_parent_context_sampled_wins_first
    (env : Env) (lambda_event : PyVal) :
  outcome (_determine_parent_context env lambda_event) =
  match sampled_xray_context env with
  | Some xray_context => Return xray_context
  | None => textmap_extract (event_headers lambda_event)
  end.
Proof. exact (determine_parent_context_outcome env lambda_event). Qed.

(** C4: an event that is not a mapping, or a mapping without a
    ["headers"] key, makes the default extractor raise nothing of its
    own: the failed subscript is caught, one debug message is logged, and
    the run goes on as the extraction from the empty mapping. *)
Theorem default_extractor_recovers (lambda_event : PyVal)
    (Hno_headers : forall entries,
        lambda_event = PyDict entries -> assoc "headers" entries = None) :
  _default_event_context_extractor lambda_event =
  Run [LogDebug extraction_failed_message] (textmap_extract (PyDict [])).
Proof.
  rewrite default_extractor_run. unfold event_headers.
  destruct lambda_event; try reflexivity.
  simpl. now rewrite (Hno_headers entries eq_refl).
Qed.

End ResolverFacts.

(** ** The wrapper *)

Section WrapperFacts.
Context `{api : OtelApi}.

Lemma determine_parent_context_eq (env : Env) (lambda_event : PyVal) :
  _determine_parent_context env lambda_event =
  Run (trace (_determine_parent_context env lambda_event))
      (sampled_wins_first env lambda_event).
Proof.
  rewrite <- determine_parent_context_outcome.
  now destruct (_determine_parent_context env lambda_event).
Qed.

(** A call whose parent resolution raises ends there: nothing but the
    resolver's log has happened. *)
Lemma otel_wrapper_unresolved (loaded : ModuleState) (orig_handler : Ref)
    (st : Store) (env : Env) (lambda_event : PyVal) (rest : list PyVal)
    (kwargs : list (string * PyVal)) (e : PyExn) :
  sampled_wins_first env lambda_event = Raise e ->
  otel_wrapper loaded orig_handler st env (lambda_event :: rest) kwargs =
  Run (trace (_determine_parent_context env lambda_event)) (Raise e).
Proof.
  intros He. unfold otel_wrapper.
  unfold mbind, M_bind, bind.
  cbn [lift tuple_index nth_error outcome trace app].
  now rewrite !determine_parent_context_outcome, He.
Qed.

(** One call of the wrapper whose parent resolution returns, laid out:
    the resolver's log, the span start, the attribute block, then the
    handler, the span end and the flush. *)
Lemma otel_wrapper_run (loaded : ModuleState) (orig_handler : Ref)
    (st : Store) (env : Env) (lambda_event : PyVal) (rest : list PyVal)
    (kwargs : list (string * PyVal)) (parent : Context) :
  sampled_wins_first env lambda_event = Return parent ->
  let args := lambda_event :: rest in
  let name := handler_name st orig_handler in
  let block := attribute_block (is_recording name parent SERVER) env args in
  let call := __call__ (st orig_handler) args kwargs in
  otel_wrapper loaded orig_handler st env args kwargs =
  Run (trace (_determine_parent_context env lambda_event)
       ++ StartSpan name parent SERVER
       :: trace block ++ rest_of_call loaded call args kwargs (outcome block))
      (match outcome block with
       | Return _ => through_flush call
       | Raise e => Raise e
       end).
Proof.
  intros Hparent. cbv zeta.
  unfold otel_wrapper, start_as_current_span, on_exit.
  change (str_join "." [__module__ (st orig_handler); __name__ (st orig_handler)])
    with (handler_name st orig_handler).
  unfold mbind, M_bind, bind.
  cbn [lift tuple_index nth_error outcome trace emit mret M_ret ret recording app].
  rewrite !determine_parent_context_outcome, Hparent.
  cbn [lift tuple_index nth_error outcome trace emit mret M_ret ret recording app].
  pose (block := attribute_block
                   (is_recording (handler_name st orig_handler) parent SERVER)
                   env (lambda_event :: rest)).
  change (if is_recording _ _ _ then _ else _) with block.
  change (attribute_block _ env (lambda_event :: rest)) with block.
  unfold through_flush, rest_of_call, flush_after.
  destruct block as [tb [[]|e]];
    destruct (__call__ (st orig_handler) (lambda_event :: rest) kwargs) as [v|e'];
    destruct tracer_provider_force_flush as [f|];
    cbn; rewrite <- ?app_assoc; reflexivity.
Qed.

Lemma otel_wrapper_no_arguments (loaded : ModuleState) (orig_handler : Ref)
    (st : Store) (env : Env) (kwargs : list (string * PyVal)) :
  otel_wrapper loaded orig_handler st env [] kwargs = Run [] (Raise IndexError).
Proof. reflexivity. Qed.

(** The attribute block, case by case. *)
Lemma attribute_block_off (env : Env) (args : list PyVal) :
  attribute_block false env args = Run [] (Return tt).
Proof. reflexivity. Qed.

Lemma attribute_block_on (env : Env) (args : list PyVal)
    (lambda_context rid arn : PyVal) :
  nth_error args 1 = Some lambda_context ->
  getattr lambda_context "aws_request_id" = Return rid ->
  getattr lambda_context "invoked_function_arn" = Return arn ->
  attribute_block true env args =
  Run [SetAttribute "faas.execution" rid;
       SetAttribute "faas.id" arn;
       SetAttribute "faas.name" (opt_str (env !! "AWS_LAMBDA_FUNCTION_NAME"));
       SetAttribute "faas.version" (opt_str (env !! "AWS_LAMBDA_FUNCTION_VERSION"))]
      (Return tt).
Proof.
  intros Hctx Hrid Harn. unfold attribute_block, tuple_index.
  rewrite Hctx. run_binds. rewrite Hrid. run_binds. rewrite Harn. reflexivity.
Qed.

Lemma attribute_block_no_context (env : Env) (args : list PyVal) :
  nth_error args 1 = None ->
  attribute_block true env args = Run [] (Raise IndexError).
Proof.
  intros Hctx. unfold attribute_block, tuple_index. now rewrite Hctx.
Qed.

Lemma attribute_block_no_request_id (env : Env) (args : list PyVal)
    (lambda_context : PyVal) :
  nth_error args 1 = Some lambda_context ->
  exposes lambda_context "aws_request_id" = false ->
  attribute_block true env args = Run [] (Raise AttributeError).
Proof.
  intros Hctx Hrid. unfold attribute_block, tuple_index.
  rewrite Hctx. run_binds. now rewrite (exposes_false _ _ Hrid).
Qed.

Lemma attribute_block_no_arn (env : Env) (args : list PyVal)
    (lambda_context rid : PyVal) :
  nth_error args 1 = Some lambda_context ->
  getattr lambda_context "aws_request_id" = Return rid ->
  exposes lambda_context "invoked_function_arn" = false ->
  attribute_block true env args =
  Run [SetAttribute "faas.execution" rid] (Raise AttributeError).
Proof.
  intros Hctx Hrid Harn. unfold attribute_block, tuple_index.
  rewrite Hctx. run_binds. rewrite Hrid. run_binds.
  now rewrite (exposes_false _ _ Harn).
Qed.

(** The block only ever sets attributes. *)
Lemma attribute_block_trace (b : bool) (env : Env) (args : list PyVal) :
  Forall (fun e => is_SetAttribute e = true) (trace (attribute_block b env args)).
Proof.
  destruct b; [|constructor].
  unfold attribute_block, tuple_index.
  destruct (nth_error args 1) as [c|]; [|constructor]. run_binds.
  destruct (getattr c "aws_request_id"); [|constructor]. run_binds.
  destruct (getattr c "invoked_function_arn"); repeat constructor.
Qed.

Lemma attribute_block_raises (b : bool) (env : Env) (args : list PyVal)
    (e : PyExn) :
  outcome (attribute_block b env args) = Raise e ->
  e = IndexError \/ e = AttributeError.
Proof.
  destruct b; [|discriminate]. unfold attribute_block, tuple_index.
  destruct (nth_error args 1) as [c|]; [|intros [= <-]; auto]. run_binds.
  destruct (getattr c "aws_request_id") eqn:Hr;
    [|intros [= <-]; right; exact (getattr_raises _ _ _ Hr)]. run_binds.
  destruct (getattr c "invoked_function_arn") eqn:Ha;
    [discriminate | intros [= <-]; right; exact (getattr_raises _ _ _ Ha)].
Qed.

Lemma filter_SetAttribute_nil (p : Effect -> bool) (t : list Effect) :
  (forall k v, p (SetAttribute k v) = false) ->
  Forall (fun e => is_SetAttribute e = true) t ->
  List.filter p t = [].
Proof.
  intros Hp Ht. induction Ht as [|e t He _ IH]; [reflexivity|].
  destruct e; try discriminate. simpl. now rewrite Hp.
Qed.

Lemma filter_SetAttribute_all (t : list Effect) :
  Forall (fun e => is_SetAttribute e = true) t ->
  set_attribute_calls t = t.
Proof.
  intros Ht. induction Ht as [|e t He _ IH]; [reflexivity|].
  unfold set_attribute_calls in *. simpl. rewrite He. now rewrite IH.
Qed.

Lemma span_records_none (t : list Effect) :
  List.filter is_StartSpan t = [] -> span_records t = false.
Proof.
  induction t as [|e t IH]; [reflexivity|].
  destruct e; simpl; try discriminate; exact IH.
Qed.

(** Nothing of a call whose parent resolution raises is a span, an
    attribute, a handler call or a flush. *)
Lemma unresolved_filter (loaded : ModuleState) (orig_handler : Ref)
    (st : Store) (env : Env) (lambda_event : PyVal) (rest : list PyVal)
    (kwargs : list (string * PyVal)) (e : PyExn) (p : Effect -> bool) :
  sampled_wins_first env lambda_event = Raise e ->
  (forall m, p (LogDebug m) = false) ->
  List.filter p
    (trace (otel_wrapper loaded orig_handler st env (lambda_event :: rest) kwargs))
  = [].
Proof.
  intros He Hp. rewrite (otel_wrapper_unresolved _ _ _ _ _ _ _ e He).
  apply filter_LogDebug_nil; [exact Hp | apply determine_parent_context_trace].
Qed.

End WrapperFacts.

Section WrapperTrace.
Context `{api : OtelApi}.
Variables (loaded : ModuleState) (orig_handler : Ref) (st : Store) (env : Env).
Variables (lambda_event : PyVal) (rest : list PyVal).
Variable kwargs : list (string * PyVal).
Variable parent : Context.
Hypothesis Hparent : sampled_wins_first env lambda_event = Return parent.

Let args := lambda_event :: rest.
Let name := handler_name st orig_handler.
Let block := attribute_block (is_recording name parent SERVER) env args.
Let call := __call__ (st orig_handler) args kwargs.
Let t := trace (otel_wrapper loaded orig_handler st env args kwargs).

Lemma wrapper_trace :
  t = (trace (_determine_parent_context env lambda_event)
       ++ StartSpan name parent SERVER
       :: trace block ++ rest_of_call loaded call args kwargs (outcome block))%list.
Proof. unfold t, args. now rewrite (otel_wrapper_run _ _ _ _ _ _ _ parent Hparent). Qed.

Lemma wrapper_outcome :
  outcome (otel_wrapper loaded orig_handler st env args kwargs) =
  match outcome block with
  | Return _ => through_flush call
  | Raise e => Raise e
  end.
Proof. unfold args. now rewrite (otel_wrapper_run _ _ _ _ _ _ _ parent Hparent). Qed.

Lemma wrapper_filter (p : Effect -> bool) :
  (forall m, p (LogDebug m) = false) ->
  List.filter p t =
  (List.filter p [StartSpan name parent SERVER]
   ++ List.filter p (trace block)
   ++ List.filter p (rest_of_call loaded call args kwargs (outcome block)))%list.
Proof.
  intros Hp. rewrite wrapper_trace.
  rewrite List.filter_app.
  rewrite (filter_LogDebug_nil p _ Hp (determine_parent_context_trace _ _)).
  cbn [app]. now rewrite <- !List.filter_app.
Qed.

Lemma wrapper_set_attribute_calls :
  set_attribute_calls t = trace block.
Proof.
  unfold set_attribute_calls. rewrite wrapper_filter by reflexivity.
  fold (set_attribute_calls (trace block)).
  rewrite (filter_SetAttribute_all (trace block) (attribute_block_trace _ _ _)).
  unfold rest_of_call, flush_after.
  destruct (outcome block), call, tracer_provider_force_flush;
    simpl; now rewrite app_nil_r.
Qed.

Lemma wrapper_handler_calls :
  handler_calls t =
  match outcome block with
  | Return _ => [CallHandler args kwargs]
  | Raise _ => []
  end.
Proof.
  unfold handler_calls. rewrite wrapper_filter by reflexivity.
  rewrite (filter_SetAttribute_nil is_CallHandler (trace block))
    by (reflexivity || apply attribute_block_trace).
  unfold rest_of_call, flush_after.
  destruct (outcome block), call, tracer_provider_force_flush; reflexivity.
Qed.

Lemma wrapper_flush_calls :
  flush_calls t =
  match outcome block with
  | Return _ => flush_after loaded call
  | Raise _ => []
  end.
Proof.
  unfold flush_calls. rewrite wrapper_filter by reflexivity.
  rewrite (filter_SetAttribute_nil is_ForceFlush (trace block))
    by (reflexivity || apply attribute_block_trace).
  unfold rest_of_call, flush_after.
  destruct (outcome block), call, tracer_provider_force_flush; reflexivity.
Qed.

Lemma wrapper_span_names : span_names t = [name].
Proof.
  rewrite wrapper_trace, span_names_app.
  rewrite (span_names_LogDebug _ (determine_parent_context_trace _ _)).
  cbn [app span_names]. rewrite span_names_app.
  assert (B : span_names (trace block) = []).
  { generalize (attribute_block_trace (is_recording name parent SERVER) env args).
    fold block. induction 1 as [|e l He _ IH]; [reflexivity|].
    destruct e; try discriminate He. exact IH. }
  rewrite B. unfold rest_of_call, flush_after.
  destruct (outcome block), call, tracer_provider_force_flush; reflexivity.
Qed.

Lemma wrapper_span_records :
  span_records t = is_recording name parent SERVER.
Proof.
  rewrite wrapper_trace. unfold span_records. rewrite existsb_app.
  fold (span_records (trace (_determine_parent_context env lambda_event))).
  rewrite span_records_none
    by (apply filter_LogDebug_nil;
        [reflexivity | apply determine_parent_context_trace]).
  cbn [existsb orb]. rewrite existsb_app.
  fold (span_records (trace block)).
  fold (span_records (rest_of_call loaded call args kwargs (outcome block))).
  rewrite (span_records_none (trace block))
    by (apply filter_SetAttribute_nil;
        [reflexivity | apply attribute_block_trace]).
  rewrite (span_records_none (rest_of_call _ _ _ _ _))
    by (unfold rest_of_call, flush_after;
        destruct (outcome block), call, tracer_provider_force_flush; reflexivity).
  now rewrite !orb_false_r.
Qed.

Lemma wrapper_before_handler :
  outcome block = Return tt ->
  before_handler t =
  (trace (_determine_parent_context env lambda_event)
   ++ StartSpan name parent SERVER :: trace block)%list
  /\ after_handler t = EndSpan :: flush_after loaded call.
Proof.
  intros Hb. rewrite wrapper_trace, Hb. cbn [rest_of_call].
  assert (H : handler_calls
                (trace (_determine_parent_context env lambda_event)
                 ++ StartSpan name parent SERVER :: trace block) = []).
  { unfold handler_calls. rewrite List.filter_app.
    rewrite (filter_LogDebug_nil is_CallHandler)
      by (reflexivity || apply determine_parent_context_trace).
    cbn [List.filter is_CallHandler app].
    apply filter_SetAttribute_nil; [reflexivity | apply attribute_block_trace]. }
  set (pre := (trace (_determine_parent_context env lambda_event)
               ++ StartSpan name parent SERVER :: trace block)%list) in *.
  replace (trace (_determine_parent_context env lambda_event)
           ++ StartSpan name parent SERVER
           :: trace block ++ CallHandler args kwargs :: EndSpan :: _)%list
    with (pre ++ CallHandler args kwargs :: EndSpan :: flush_after loaded call)%list
    by (unfold pre; now rewrite <- app_assoc).
  split; [now apply before_handler_app | now apply after_handler_app].
Qed.

End WrapperTrace.

Section WrapperClaims.
Context `{api : OtelApi}.

Lemma context_ok_fields (args : list PyVal) :
  context_ok args = true ->
  exists lambda_context rid arn,
    nth_error args 1 = Some lambda_context
    /\ getattr lambda_context "aws_request_id" = Return rid
    /\ getattr lambda_context "invoked_function_arn" = Return arn.
Proof.
  destruct args as [|ev [|c rest]]; try discriminate. simpl.
  intros [Hr Ha]%andb_prop.
  destruct (exposes_true _ _ Hr) as [rid Hrid].
  destruct (exposes_true _ _ Ha) as [arn Harn].
  exists c, rid, arn. auto.
Qed.

Lemma attribute_block_returns (b : bool) (env : Env) (args : list PyVal) :
  (b = true -> context_ok args = true) ->
  outcome (attribute_block b env args) = Return tt.
Proof.
  destruct b; [|reflexivity]. intros H.
  destruct (context_ok_fields args (H eq_refl)) as (c & rid & arn & Hc & Hr & Ha).
  now rewrite (attribute_block_on env args c rid arn Hc Hr Ha).
Qed.

Lemma unresolved_span_records (loaded : ModuleState) (orig_handler : Ref)
    (st : Store) (env : Env) (lambda_event : PyVal) (rest : list PyVal)
    (kwargs : list (string * PyVal)) (e : PyExn) :
  sampled_wins_first env lambda_event = Raise e ->
  span_records
    (trace (otel_wrapper loaded orig_handler st env (lambda_event :: rest) kwargs))
  = false.
Proof.
  intros He. apply span_records_none.
  now apply (unresolved_filter _ _ _ _ _ _ _ e).
Qed.

(** On the return path, under a provider that has [force_flush], the
    flush is the last call of the wrapper, made once, with the timeout
    fixed at load. *)
Lemma force_flush_once_on_return (loaded : ModuleState) (orig_handler : Ref)
    (st : Store) (env : Env) (lambda_event : PyVal) (rest : list PyVal)
    (kwargs : list (string * PyVal)) (parent : Context) (result : PyVal)
    (method : Z -> bool) :
  let args := lambda_event :: rest in
  let run := otel_wrapper loaded orig_handler st env args kwargs in
  sampled_wins_first env lambda_event = Return parent ->
  (span_records (trace run) = true -> context_ok args = true) ->
  tracer_provider_force_flush = Some method ->
  __call__ (st orig_handler) args kwargs = Return result ->
  flush_calls (trace run) = [ForceFlush (flush_timeout loaded)]
  /\ after_handler (trace run) = [EndSpan; ForceFlush (flush_timeout loaded)].
Proof.
  cbv zeta. intros Hparent Hok Hflush Hcall.
  rewrite (wrapper_span_records _ _ _ _ _ _ _ parent Hparent) in Hok.
  pose proof (attribute_block_returns _ env (lambda_event :: rest) Hok) as Hb.
  split.
  - rewrite (wrapper_flush_calls _ _ _ _ _ _ _ parent Hparent), Hb.
    unfold flush_after. now rewrite Hcall, Hflush.
  - destruct (wrapper_before_handler loaded orig_handler st env
                lambda_event rest kwargs parent Hparent Hb) as [_ Ha].
    rewrite Ha. unfold flush_after. now rewrite Hcall, Hflush.
Qed.

(** When the handler raises, the wrapper is left before the flush. *)
Lemma no_force_flush_on_raise (loaded : ModuleState) (orig_handler : Ref)
    (st : Store) (env : Env) (lambda_event : PyVal) (rest : list PyVal)
    (kwargs : list (string * PyVal)) (e : PyExn) :
  let args := lambda_event :: rest in
  let run := otel_wrapper loaded orig_handler st env args kwargs in
  __call__ (st orig_handler) args kwargs = Raise e ->
  flush_calls (trace run) = [].
Proof.
  cbv zeta. intros Hcall.
  destruct (sampled_wins_first env lambda_event) as [parent|e'] eqn:Hparent.
  - rewrite (wrapper_flush_calls _ _ _ _ _ _ _ parent Hparent).
    unfold flush_after. rewrite Hcall. now destruct (outcome _).
  - now apply (unresolved_filter _ _ _ _ _ _ _ e').
Qed.

(** C3, amended: take a call with a positional argument from which the
    parent context is resolved without an exception, with a second
    argument that exposes [aws_request_id] and [invoked_function_arn]
    when the span records, under a provider that has [force_flush].  The
    wrapper calls the handler once with the arguments it received, and
    ends as that call ends: same return value, same exception. *)
Theorem otel_wrapper_transparent (loaded : ModuleState) (orig_handler : Ref)
    (st : Store) (env : Env) (args : list PyVal)
    (kwargs : list (string * PyVal))
    (lambda_event : PyVal) (parent : Context) (method : Z -> bool)
    (Hevent : nth_error args 0 = Some lambda_event)
    (Hparent : outcome (_determine_parent_context env lambda_event)
               = Return parent)
    (Hcontext : span_records
                  (trace (otel_wrapper loaded orig_handler st env args kwargs))
                = true -> context_ok args = true)
    (Hflush : tracer_provider_force_flush = Some method) :
  outcome (otel_wrapper loaded orig_handler st env args kwargs)
    = __call__ (st orig_handler) args kwargs
  /\ handler_calls (trace (otel_wrapper loaded orig_handler st env args kwargs))
     = [CallHandler args kwargs].
Proof.
  destruct args as [|ev rest]; [discriminate|].
  injection Hevent as ->.
  rewrite determine_parent_context_outcome in Hparent.
  rewrite (wrapper_span_records _ _ _ _ _ _ _ parent Hparent) in Hcontext.
  pose proof (attribute_block_returns _ env (lambda_event :: rest) Hcontext) as Hb.
  rewrite (wrapper_outcome _ _ _ _ _ _ _ parent Hparent).
  rewrite (wrapper_handler_calls _ _ _ _ _ _ _ parent Hparent), Hb.
  unfold through_flush. rewrite Hflush.
  split; [now destruct (__call__ _ _ _) | reflexivity].
Qed.

(** C6, amended: the span a call starts is named ["<module>.<name>"] of
    the handler as the store of that call has it, for every call with a
    positional argument from which the parent context is resolved
    without an exception; two such calls of the same decorated function
    under stores that agree on these two attributes start spans of the
    same name. *)
Theorem span_name_at_call_time (loaded : ModuleState) (orig_handler : Ref)
    (st : Store) (env : Env) (args : list PyVal)
    (kwargs : list (string * PyVal))
    (lambda_event : PyVal) (parent : Context)
    (Hevent : nth_error args 0 = Some lambda_event)
    (Hparent : outcome (_determine_parent_context env lambda_event)
               = Return parent) :
  span_names (trace (otel_handler loaded orig_handler st env args kwargs))
    = [__module__ (st orig_handler) ++ "." ++ __name__ (st orig_handler)]
  /\ forall st' env' args' kwargs' lambda_event' parent',
       nth_error args' 0 = Some lambda_event' ->
       outcome (_determine_parent_context env' lambda_event') = Return parent' ->
       __module__ (st' orig_handler) = __module__ (st orig_handler) ->
       __name__ (st' orig_handler) = __name__ (st orig_handler) ->
       span_names (trace (otel_handler loaded orig_handler st' env' args' kwargs'))
       = span_names (trace (otel_handler loaded orig_handler st env args kwargs)).
Proof.
  unfold otel_handler.
  destruct args as [|ev rest]; [discriminate|]. injection Hevent as ->.
  rewrite determine_parent_context_outcome in Hparent.
  split; [exact (wrapper_span_names _ _ _ _ _ _ _ parent Hparent)|].
  intros st' env' [|ev' rest'] kwargs' lambda_event' parent' He' Hp' Hm Hn;
    [discriminate|]. injection He' as ->.
  rewrite determine_parent_context_outcome in Hp'.
  rewrite (wrapper_span_names _ _ _ _ _ _ _ parent Hparent).
  rewrite (wrapper_span_names _ _ _ _ _ _ _ parent' Hp').
  unfold handler_name. now rewrite Hm, Hn.
Qed.

(** C7, amended: when the span records and the call has a second
    positional argument that exposes [aws_request_id] and
    [invoked_function_arn], the wrapper sets exactly the four attributes
    ["faas.execution"], ["faas.id"], ["faas.name"] and ["faas.version"],
    from the context's request id and ARN and from the two environment
    variables, all before it calls the handler; when the span does not
    record it sets none. *)
Theorem faas_attributes_when_recording (loaded : ModuleState)
    (orig_handler : Ref) (st : Store) (env : Env) (args : list PyVal)
    (kwargs : list (string * PyVal)) :
  let t := trace (otel_wrapper loaded orig_handler st env args kwargs) in
  (span_records t = false -> set_attribute_calls t = [])
  /\ (span_records t = true ->
      forall lambda_context rid arn,
        nth_error args 1 = Some lambda_context ->
        getattr lambda_context "aws_request_id" = Return rid ->
        getattr lambda_context "invoked_function_arn" = Return arn ->
        set_attribute_calls (before_handler t)
        = [SetAttribute "faas.execution" rid;
           SetAttribute "faas.id" arn;
           SetAttribute "faas.name" (opt_str (env !! "AWS_LAMBDA_FUNCTION_NAME"));
           SetAttribute "faas.version" (opt_str (env !! "AWS_LAMBDA_FUNCTION_VERSION"))]
        /\ set_attribute_calls (after_handler t) = []
        /\ handler_calls t = [CallHandler args kwargs]).
Proof.
  cbv zeta. destruct args as [|lambda_event rest].
  { split; [reflexivity | discriminate]. }
  destruct (sampled_wins_first env lambda_event) as [parent|e] eqn:Hparent.
  2: { rewrite (unresolved_span_records _ _ _ _ _ _ _ e Hparent).
       split; [|discriminate]. intros _.
       now apply (unresolved_filter _ _ _ _ _ _ _ e). }
  rewrite (wrapper_span_records _ _ _ _ _ _ _ parent Hparent). split.
  - intros Hrec.
    rewrite (wrapper_set_attribute_calls _ _ _ _ _ _ _ parent Hparent), Hrec.
    reflexivity.
  - intros Hrec c rid arn Hc Hr Ha.
    pose proof (attribute_block_on env (lambda_event :: rest) c rid arn Hc Hr Ha)
      as Hblock.
    assert (Hb : outcome (attribute_block
                            (is_recording (handler_name st orig_handler)
                               parent SERVER)
                            env (lambda_event :: rest)) = Return tt)
      by now rewrite Hrec, Hblock.
    destruct (wrapper_before_handler loaded orig_handler st env
                lambda_event rest kwargs parent Hparent Hb) as [Hbefore Hafter].
    rewrite Hbefore, Hafter.
    rewrite (wrapper_handler_calls _ _ _ _ _ _ _ parent Hparent).
    rewrite Hb, Hrec, Hblock.
    split; [|split; [|reflexivity]].
    + unfold set_attribute_calls. rewrite List.filter_app.
      rewrite (filter_LogDebug_nil is_SetAttribute)
        by (reflexivity || apply determine_parent_context_trace).
      reflexivity.
    + unfold flush_after.
      now destruct (__call__ _ _ _), tracer_provider_force_flush.
Qed.

(** C8, amended: the context fields are read without a guard.  When the
    span records and the context argument lacks [aws_request_id] or
    [invoked_function_arn], [AttributeError] leaves the wrapper, the
    handler is not called, and only the attribute set before the failing
    read (["faas.execution"], when the request id is there) has been
    set. *)
Theorem unguarded_context_access (loaded : ModuleState) (orig_handler : Ref)
    (st : Store) (env : Env) (args : list PyVal)
    (kwargs : list (string * PyVal)) (lambda_context : PyVal)
    (Hrecording : span_records
                    (trace (otel_wrapper loaded orig_handler st env args kwargs))
                  = true)
    (Hcontext : nth_error args 1 = Some lambda_context)
    (Hmissing : exposes lambda_context "aws_request_id"
                && exposes lambda_context "invoked_function_arn" = false) :
  let run := otel_wrapper loaded orig_handler st env args kwargs in
  outcome run = Raise AttributeError
  /\ handler_calls (trace run) = []
  /\ set_attribute_calls (trace run)
     = match getattr lambda_context "aws_request_id" with
       | Return rid => [SetAttribute "faas.execution" rid]
       | Raise _ => []
       end.
Proof.
  cbv zeta. destruct args as [|lambda_event rest]; [discriminate|].
  destruct (sampled_wins_first env lambda_event) as [parent|e] eqn:Hparent.
  2: { rewrite (unresolved_span_records _ _ _ _ _ _ _ e Hparent) in Hrecording.
       discriminate. }
  rewrite (wrapper_span_records _ _ _ _ _ _ _ parent Hparent) in Hrecording.
  rewrite (wrapper_outcome _ _ _ _ _ _ _ parent Hparent).
  rewrite (wrapper_handler_calls _ _ _ _ _ _ _ parent Hparent).
  rewrite (wrapper_set_attribute_calls _ _ _ _ _ _ _ parent Hparent).
  rewrite Hrecording.
  destruct (exposes lambda_context "aws_request_id") eqn:Hr.
  - destruct (exposes_true _ _ Hr) as [rid Hrid]. simpl in Hmissing.
    rewrite (attribute_block_no_arn env _ lambda_context rid Hcontext Hrid Hmissing).
    rewrite Hrid. auto.
  - rewrite (attribute_block_no_request_id env _ lambda_context Hcontext Hr).
    rewrite (exposes_false _ _ Hr). auto.
Qed.

(** C9, amended: when the span records and the context exposes both
    fields, the four values passed are the context's request id, its
    ARN, and [os.environ.get] of the two variables: the variable's
    string when it is set, [None] when it is not.  So all four are
    strings exactly when both context fields hold strings and both
    variables are set. *)
Theorem faas_attribute_values (loaded : ModuleState) (orig_handler : Ref)
    (st : Store) (env : Env) (args : list PyVal)
    (kwargs : list (string * PyVal)) (lambda_context rid arn : PyVal)
    (Hrecording : span_records
                    (trace (otel_wrapper loaded orig_handler st env args kwargs))
                  = true)
    (Hcontext : nth_error args 1 = Some lambda_context)
    (Hrid : getattr lambda_context "aws_request_id" = Return rid)
    (Harn : getattr lambda_context "invoked_function_arn" = Return arn) :
  let values := attribute_values
                  (trace (otel_wrapper loaded orig_handler st env args kwargs)) in
  values = [rid; arn;
            opt_str (env !! "AWS_LAMBDA_FUNCTION_NAME");
            opt_str (env !! "AWS_LAMBDA_FUNCTION_VERSION")]
  /\ (forallb is_str values = true <->
      is_str rid = true /\ is_str arn = true
      /\ is_Some (env !! "AWS_LAMBDA_FUNCTION_NAME")
      /\ is_Some (env !! "AWS_LAMBDA_FUNCTION_VERSION")).
Proof.
  cbv zeta. destruct args as [|lambda_event rest]; [discriminate|].
  destruct (sampled_wins_first env lambda_event) as [parent|e] eqn:Hparent.
  2: { rewrite (unresolved_span_records _ _ _ _ _ _ _ e Hparent) in Hrecording.
       discriminate. }
  rewrite (wrapper_span_records _ _ _ _ _ _ _ parent Hparent) in Hrecording.
  assert (Hv : attribute_values
                 (trace (otel_wrapper loaded orig_handler st env
                           (lambda_event :: rest) kwargs))
               = [rid; arn;
                  opt_str (env !! "AWS_LAMBDA_FUNCTION_NAME");
                  opt_str (env !! "AWS_LAMBDA_FUNCTION_VERSION")]).
  { rewrite (wrapper_trace _ _ _ _ _ _ _ parent Hparent), attribute_values_app.
    rewrite (attribute_values_LogDebug _ (determine_parent_context_trace _ _)).
    cbn [app attribute_values]. rewrite attribute_values_app.
    rewrite Hrecording.
    rewrite (attribute_block_on env _ lambda_context rid arn Hcontext Hrid Harn).
    cbn [trace outcome attribute_values rest_of_call app].
    unfold flush_after.
    now destruct (__call__ _ _ _), tracer_provider_force_flush. }
  rewrite Hv. split; [reflexivity|].
  cbn [forallb]. rewrite !andb_true_iff.
  destruct (env !! "AWS_LAMBDA_FUNCTION_NAME") as [n|],
           (env !! "AWS_LAMBDA_FUNCTION_VERSION") as [v|]; cbn [opt_str is_str];
    split; intros H; try (destruct H as (? & ? & ? & ?); discriminate).
  all: repeat match goal with
              | H : _ /\ _ |- _ => destruct H
              | H : is_Some None |- _ => destruct H as [? ?]; discriminate
              end;
       repeat split; auto.
  all: try discriminate.
Qed.

(** C10: without a positional argument the wrapper raises [IndexError]
    at [args[0]], having started no span and called nothing; with one
    positional argument and a recording span it raises [IndexError] at
    [args[1]], and the handler is not called. *)
Theorem wrapper_index_errors (loaded : ModuleState) (orig_handler : Ref)
    (st : Store) (env : Env) (kwargs : list (string * PyVal)) :
  otel_wrapper loaded orig_handler st env [] kwargs = Run [] (Raise IndexError)
  /\ forall lambda_event,
       let run := otel_wrapper loaded orig_handler st env [lambda_event] kwargs in
       span_records (trace run) = true ->
       outcome run = Raise IndexError
       /\ handler_calls (trace run) = []
       /\ set_attribute_calls (trace run) = [].
Proof.
  split; [reflexivity|]. cbv zeta. intros lambda_event Hrec.
  destruct (sampled_wins_first env lambda_event) as [parent|e] eqn:Hparent.
  2: { rewrite (unresolved_span_records _ _ _ _ _ _ _ e Hparent) in Hrec.
       discriminate. }
  rewrite (wrapper_span_records _ _ _ _ _ _ _ parent Hparent) in Hrec.
  rewrite (wrapper_outcome _ _ _ _ _ _ _ parent Hparent).
  rewrite (wrapper_handler_calls _ _ _ _ _ _ _ parent Hparent).
  rewrite (wrapper_set_attribute_calls _ _ _ _ _ _ _ parent Hparent).
  rewrite Hrec, attribute_block_no_context by reflexivity. auto.
Qed.

End WrapperClaims.

(** ** Module load *)

Example int_of_str_5000 : int_of_str (H := Demo.interpreter) "5000" = Some 5000.
Proof. reflexivity. Qed.

Example int_of_str_forms :
  List.map (int_of_str (H := Demo.interpreter)) [" 12 "; "-7"; "007"; "1_000"]
    = [Some 12; Some (-7); Some 7; Some 1000]
  /\ List.map (int_of_str (H := Demo.interpreter))
       ["abc"; ""; "+ 7"; "1__2"; "_1"; "1_"; "12 3"; "0x10";
        String (ascii_of_nat 31) "42"]
    = [None; None; None; None; None; None; None; None; None].
Proof. split; reflexivity. Qed.

(** The digit limit: 4300 digits are read, one more is refused. *)
Example int_of_str_digit_limit :
  int_of_str (H := Demo.interpreter)
    (string_of_list_ascii (repeat "0"%char 4300)) = Some 0
  /\ int_of_str (H := Demo.interpreter)
       (string_of_list_ascii (repeat "0"%char 4301)) = None.
Proof. split; vm_compute; reflexivity. Qed.

(** C5, amended: [flush_timeout] is computed when the module is loaded,
    from [OTEL_INSTRUMENTATION_AWS_LAMBDA_FLUSH_TIMEOUT]: 30000 when the
    variable is unset, the integer when [int] reads its value as one, and
    when [int] refuses the value the load fails with [ValueError].  A
    loaded module keeps its value: whatever the environment of a call, a
    flush gets the timeout of load time. *)
Theorem flush_timeout_at_load `{api : OtelApi} `{interp : Interpreter}
    (load_env : Env) :
  let variable := "OTEL_INSTRUMENTATION_AWS_LAMBDA_FLUSH_TIMEOUT" in
  (load_env !! variable = None ->
   module_load load_env = Return (mkModuleState 30000))
  /\ (forall s n,
        load_env !! variable = Some s -> int_of_str s = Some n ->
        module_load load_env = Return (mkModuleState n))
  /\ (forall s,
        load_env !! variable = Some s -> int_of_str s = None ->
        module_load load_env = Raise ValueError)
  /\ (forall loaded,
        module_load load_env = Return loaded ->
        forall orig_handler st env args kwargs,
          Forall (fun e => e = ForceFlush (flush_timeout loaded))
                 (flush_calls
                    (trace (otel_wrapper loaded orig_handler st env args kwargs)))).
Proof.
  cbv zeta. unfold module_load, environ_get. repeat split.
  - intros ->. reflexivity.
  - intros s n -> Hn. simpl. now rewrite Hn.
  - intros s -> Hn. simpl. now rewrite Hn.
  - intros loaded _ orig_handler st env [|lambda_event rest] kwargs;
      [constructor|].
    destruct (sampled_wins_first env lambda_event) as [parent|e] eqn:Hparent.
    + rewrite (wrapper_flush_calls _ _ _ _ _ _ _ parent Hparent).
      unfold flush_after.
      destruct (outcome _); [|constructor].
      destruct (__call__ _ _ _), tracer_provider_force_flush;
        repeat constructor.
    + unfold flush_calls.
      rewrite (unresolved_filter _ _ _ _ _ _ _ e _ Hparent) by reflexivity.
      constructor.
Qed.

(** * Further properties of the module *)

Section ResolverMore.
Context `{api : OtelApi}.

(** X1: the resolver logs its diagnostic at most once, and exactly when
    no sampled X-Ray context is at hand and the event gives no
    ["headers"]; a sampled X-Ray context keeps it silent even for an event
    without headers. *)
Theorem resolver_diagnostic (env : Env) (lambda_event : PyVal) :
  trace (_determine_parent_context env lambda_event) =
  match sampled_xray_context env, getitem lambda_event "headers" with
  | None, Raise _ => [LogDebug extraction_failed_message]
  | _, _ => []
  end.
Proof.
  unfold _determine_parent_context, sampled_xray_context.
  destruct (env !! "_X_AMZN_TRACE_ID") as [v|];
    [|now rewrite default_extractor_run].
  simpl. destruct (negb (String.eqb v "")); simpl;
    [|now rewrite default_extractor_run].
  destruct (sampled _) eqn:S.
  - now rewrite (sampled_context_truthy _ S).
  - rewrite andb_false_r. now rewrite default_extractor_run.
Qed.

(** X2: an empty [_X_AMZN_TRACE_ID] counts as an unset one. *)
Theorem empty_xray_variable_is_unset (env : Env) (lambda_event : PyVal) :
  _determine_parent_context (<[ "_X_AMZN_TRACE_ID" := "" ]> env) lambda_event
  = _determine_parent_context (delete "_X_AMZN_TRACE_ID" env) lambda_event.
Proof.
  unfold _determine_parent_context.
  now rewrite lookup_insert_eq, lookup_delete_eq.
Qed.

End ResolverMore.

Section WrapperMore.
Context `{api : OtelApi}.
Variables (loaded : ModuleState) (orig_handler : Ref) (st : Store) (env : Env).
Variables (args : list PyVal) (kwargs : list (string * PyVal)).

(** X3: [force_flush] is called exactly when the wrapper returns: once,
    with the timeout fixed at load, on a normal return; never when an
    exception leaves the wrapper, whoever raised it. *)
Theorem flush_iff_wrapper_returns :
  flush_calls (trace (otel_wrapper loaded orig_handler st env args kwargs)) =
  match outcome (otel_wrapper loaded orig_handler st env args kwargs) with
  | Return _ => [ForceFlush (flush_timeout loaded)]
  | Raise _ => []
  end.
Proof.
  destruct args as [|lambda_event rest]; [reflexivity|].
  destruct (sampled_wins_first env lambda_event) as [parent|e] eqn:Hparent.
  - rewrite (wrapper_flush_calls _ _ _ _ _ _ _ parent Hparent).
    rewrite (wrapper_outcome _ _ _ _ _ _ _ parent Hparent).
    unfold flush_after, through_flush.
    destruct (outcome (attribute_block _ _ _)); [|reflexivity].
    now destruct (__call__ _ _ _), tracer_provider_force_flush.
  - rewrite (otel_wrapper_unresolved _ _ _ _ _ _ _ e Hparent). cbn [trace outcome].
    apply filter_LogDebug_nil;
      [reflexivity | apply determine_parent_context_trace].
Qed.

(** X4: every span the wrapper starts is ended.  A call whose parent
    context is resolved starts exactly one span, of kind [SERVER], named
    after the handler, under that parent, and ends it exactly once,
    whether the body returns or raises.  A call whose parent resolution
    raises starts and ends none, and the exception leaves the wrapper; a
    call without positional argument makes no library call at all. *)
Theorem one_span_started_and_ended :
  let run := otel_wrapper loaded orig_handler st env args kwargs in
  match args with
  | [] => trace run = []
  | lambda_event :: _ =>
      match outcome (_determine_parent_context env lambda_event) with
      | Return parent =>
          started_spans (trace run)
          = [StartSpan (handler_name st orig_handler) parent SERVER]
          /\ span_ends (trace run) = [EndSpan]
      | Raise e =>
          started_spans (trace run) = []
          /\ span_ends (trace run) = []
          /\ outcome run = Raise e
      end
  end.
Proof.
  cbv zeta. destruct args as [|lambda_event rest]; [reflexivity|].
  rewrite determine_parent_context_outcome.
  destruct (sampled_wins_first env lambda_event) as [parent|e] eqn:Hparent.
  - unfold started_spans, span_ends.
    rewrite !(wrapper_filter _ _ _ _ _ _ _ parent Hparent) by reflexivity.
    rewrite (filter_SetAttribute_nil is_StartSpan
               (trace (attribute_block _ env (lambda_event :: rest))))
      by (reflexivity || apply attribute_block_trace).
    rewrite (filter_SetAttribute_nil is_EndSpan
               (trace (attribute_block _ env (lambda_event :: rest))))
      by (reflexivity || apply attribute_block_trace).
    unfold rest_of_call, flush_after.
    destruct (outcome (attribute_block _ _ _));
      [destruct (__call__ _ _ _), tracer_provider_force_flush|];
      split; reflexivity.
  - unfold started_spans, span_ends.
    rewrite !(unresolved_filter _ _ _ _ _ _ _ e _ Hparent) by reflexivity.
    now rewrite (otel_wrapper_unresolved _ _ _ _ _ _ _ e Hparent).
Qed.

(** X5: the handler is called at most once, and the wrapper never
    returns without having called it.  When the handler is called, it
    gets the wrapper's own arguments; the wrapper then ends as the call
    ends, except that after a return of the handler a provider without
    [force_flush] makes the wrapper raise [AttributeError].  When the
    handler is not called, an exception has left the wrapper. *)
Theorem handler_called_or_wrapper_raised :
  let run := otel_wrapper loaded orig_handler st env args kwargs in
  (handler_calls (trace run) = [CallHandler args kwargs]
   /\ outcome run =
      match __call__ (st orig_handler) args kwargs, tracer_provider_force_flush with
      | Return _, None => Raise AttributeError
      | ended, _ => ended
      end)
  \/ (handler_calls (trace run) = []
      /\ exists e, outcome run = Raise e).
Proof.
  cbv zeta. destruct args as [|lambda_event rest]; [right; eauto|].
  destruct (sampled_wins_first env lambda_event) as [parent|e] eqn:Hparent.
  - rewrite (wrapper_handler_calls _ _ _ _ _ _ _ parent Hparent).
    rewrite (wrapper_outcome _ _ _ _ _ _ _ parent Hparent).
    destruct (outcome (attribute_block _ _ _)) as [u|e] eqn:Hb;
      [left; split; [reflexivity|] | right; eauto].
    unfold through_flush.
    now destruct (__call__ _ _ _), tracer_provider_force_flush.
  - right. split.
    + now apply (unresolved_filter _ _ _ _ _ _ _ e).
    + rewrite (otel_wrapper_unresolved _ _ _ _ _ _ _ e Hparent). eauto.
Qed.

(** X6: the handler runs inside the span.  When the handler is called,
    one span has been started and none ended before the call; what
    follows the call is the end of the span and then the flush: one
    call of [force_flush] when the handler returned and the provider has
    the method, none otherwise. *)
Theorem handler_runs_inside_span
    (Hcalled : handler_calls
                 (trace (otel_wrapper loaded orig_handler st env args kwargs))
               <> []) :
  let t := trace (otel_wrapper loaded orig_handler st env args kwargs) in
  List.length (started_spans (before_handler t)) = 1%nat
  /\ span_ends (before_handler t) = []
  /\ after_handler t =
     EndSpan ::
     match __call__ (st orig_handler) args kwargs, tracer_provider_force_flush with
     | Return _, Some _ => [ForceFlush (flush_timeout loaded)]
     | _, _ => []
     end.
Proof.
  cbv zeta. destruct args as [|lambda_event rest]; [contradiction|].
  destruct (sampled_wins_first env lambda_event) as [parent|e] eqn:Hparent.
  2: { exfalso. apply Hcalled.
       now apply (unresolved_filter _ _ _ _ _ _ _ e). }
  rewrite (wrapper_handler_calls _ _ _ _ _ _ _ parent Hparent) in Hcalled.
  destruct (outcome (attribute_block _ _ _)) as [[]|e] eqn:Hb; [|contradiction].
  destruct (wrapper_before_handler loaded orig_handler st env
              lambda_event rest kwargs parent Hparent Hb) as [Hbefore Hafter].
  rewrite Hbefore, Hafter. unfold started_spans, span_ends.
  rewrite !List.filter_app.
  rewrite (filter_LogDebug_nil is_StartSpan)
    by (reflexivity || apply determine_parent_context_trace).
  rewrite (filter_LogDebug_nil is_EndSpan)
    by (reflexivity || apply determine_parent_context_trace).
  cbn [List.filter is_StartSpan is_EndSpan app].
  rewrite (filter_SetAttribute_nil is_StartSpan)
    by (reflexivity || apply attribute_block_trace).
  rewrite (filter_SetAttribute_nil is_EndSpan)
    by (reflexivity || apply attribute_block_trace).
  auto.
Qed.

(** X7: a call reads three environment variables and no other: two
    environments that agree on [_X_AMZN_TRACE_ID],
    [AWS_LAMBDA_FUNCTION_NAME] and [AWS_LAMBDA_FUNCTION_VERSION] give the
    same run. *)
Theorem wrapper_reads_three_variables (env' : Env)
    (Hxray : env' !! "_X_AMZN_TRACE_ID" = env !! "_X_AMZN_TRACE_ID")
    (Hname : env' !! "AWS_LAMBDA_FUNCTION_NAME" = env !! "AWS_LAMBDA_FUNCTION_NAME")
    (Hversion : env' !! "AWS_LAMBDA_FUNCTION_VERSION"
                = env !! "AWS_LAMBDA_FUNCTION_VERSION") :
  otel_wrapper loaded orig_handler st env' args kwargs
  = otel_wrapper loaded orig_handler st env args kwargs.
Proof.
  unfold otel_wrapper, _determine_parent_context.
  now rewrite Hxray, Hname, Hversion.
Qed.

End WrapperMore.

Section EdgeCases.
Context `{api : OtelApi}.

(** X9: the text-map extraction is outside the [try].  When no sampled
    X-Ray context is at hand and the propagator raises on the event's
    headers, whatever the class of the exception, it leaves the wrapper
    as it is: no span is started, the handler is not called and nothing
    is flushed. *)
Theorem extract_failure_aborts_invocation (loaded : ModuleState)
    (orig_handler : Ref) (st : Store) (env : Env) (lambda_event : PyVal)
    (rest : list PyVal) (kwargs : list (string * PyVal)) (e : PyExn)
    (Hxray : sampled_xray_context env = None)
    (Hextract : textmap_extract (event_headers lambda_event) = Raise e) :
  let run := otel_wrapper loaded orig_handler st env (lambda_event :: rest) kwargs in
  outcome run = Raise e
  /\ started_spans (trace run) = []
  /\ handler_calls (trace run) = []
  /\ flush_calls (trace run) = [].
Proof.
  cbv zeta.
  assert (Hparent : sampled_wins_first env lambda_event = Raise e)
    by (unfold sampled_wins_first; now rewrite Hxray).
  unfold started_spans, handler_calls, flush_calls.
  rewrite !(unresolved_filter _ _ _ _ _ _ _ e _ Hparent) by reflexivity.
  now rewrite (otel_wrapper_unresolved _ _ _ _ _ _ _ e Hparent).
Qed.

(** X10: when the span that was started does not record, the context
    argument is never read: a call with the event alone sets no
    attribute and calls the handler with that one argument; it then ends
    as the handler ends, except that after a return of the handler a
    provider without [force_flush] makes it raise [AttributeError]. *)
Theorem context_unread_when_not_recording (loaded : ModuleState)
    (orig_handler : Ref) (st : Store) (env : Env) (lambda_event : PyVal)
    (kwargs : list (string * PyVal)) (parent : Context)
    (Hparent : outcome (_determine_parent_context env lambda_event)
               = Return parent)
    (Hsilent : span_records
                 (trace (otel_wrapper loaded orig_handler st env
                           [lambda_event] kwargs)) = false) :
  let run := otel_wrapper loaded orig_handler st env [lambda_event] kwargs in
  handler_calls (trace run) = [CallHandler [lambda_event] kwargs]
  /\ set_attribute_calls (trace run) = []
  /\ outcome run =
     match __call__ (st orig_handler) [lambda_event] kwargs,
           tracer_provider_force_flush with
     | Return _, None => Raise AttributeError
     | ended, _ => ended
     end.
Proof.
  cbv zeta. rewrite determine_parent_context_outcome in Hparent.
  rewrite (wrapper_span_records _ _ _ _ _ _ _ parent Hparent) in Hsilent.
  rewrite (wrapper_outcome _ _ _ _ _ _ _ parent Hparent).
  rewrite (wrapper_handler_calls _ _ _ _ _ _ _ parent Hparent).
  rewrite (wrapper_set_attribute_calls _ _ _ _ _ _ _ parent Hparent).
  rewrite Hsilent. cbn [attribute_block trace outcome mret M_ret ret].
  unfold through_flush.
  now destruct (__call__ _ _ _), tracer_provider_force_flush.
Qed.

End EdgeCases.

(** * The claims and the further properties on concrete calls *)

(** C2: a handler that raises.  The handler is called, its exception
    leaves the wrapper, and [force_flush] is not called at all, where the
    claim asks for exactly one call on this path too. *)
Theorem force_flush_skipped_when_handler_raises :
  let run := otel_wrapper (api := Demo.api) Demo.loaded 1 Demo.store Demo.env_lambda
               [Demo.event_with_headers; Demo.lambda_context] [] in
  handler_calls (trace run)
    = [CallHandler [Demo.event_with_headers; Demo.lambda_context] []]
  /\ outcome run = Raise (Raised "RuntimeError" "boom")
  /\ flush_calls (trace run) = [].
Proof. vm_compute. auto. Qed.

(** C1 on the two scenarios of the specification: a sampled X-Ray id
    beats the event's headers; without it the headers decide. *)
Example parent_from_xray :
  _determine_parent_context (api := Demo.api) Demo.env_xray_sampled
    Demo.event_with_headers
  = Run [] (Return (Demo.xray_context 1)).
Proof. vm_compute. reflexivity. Qed.

Example parent_from_headers :
  _determine_parent_context (api := Demo.api)
    {[ "_X_AMZN_TRACE_ID" := Demo.xray_unsampled ]} Demo.event_with_headers
  = Run [] (Return Demo.header_context).
Proof. vm_compute. reflexivity. Qed.

(** C3 as stated fails on the empty argument list: the handler [ping]
    returns, its decorated form raises [IndexError]. *)
Lemma wrapper_differs_without_arguments :
  __call__ (Demo.store 2) [] [] = Return (PyStr "pong")
  /\ outcome (otel_wrapper (api := Demo.api) Demo.loaded 2 Demo.store ∅ [] [])
     = Raise IndexError
  /\ outcome (otel_wrapper (api := Demo.api) Demo.loaded 2 Demo.store ∅ [] [])
     <> __call__ (Demo.store 2) [] [].
Proof. split; [reflexivity | split; [reflexivity | discriminate]]. Qed.

Lemma otel_wrapper_transparent_witness :
  outcome (otel_wrapper (api := Demo.api) Demo.loaded 0 Demo.store Demo.env_lambda
             [Demo.event_with_headers; Demo.lambda_context] [])
    = Return (PyStr "200 OK")
  /\ handler_calls
       (trace (otel_wrapper (api := Demo.api) Demo.loaded 0 Demo.store
                 Demo.env_lambda
                 [Demo.event_with_headers; Demo.lambda_context] []))
     = [CallHandler [Demo.event_with_headers; Demo.lambda_context] []].
Proof.
  apply (otel_wrapper_transparent (api := Demo.api) Demo.loaded 0 Demo.store
           Demo.env_lambda [Demo.event_with_headers; Demo.lambda_context] []
           Demo.event_with_headers Demo.header_context (fun _ => true)).
  - reflexivity.
  - vm_compute. reflexivity.
  - intros _. reflexivity.
  - reflexivity.
Defined.

Lemma default_extractor_recovers_witness :
  _default_event_context_extractor (api := Demo.api) Demo.event_without_headers
  = Run [LogDebug extraction_failed_message] (Return ∅).
Proof.
  apply (default_extractor_recovers (api := Demo.api) Demo.event_without_headers).
  intros entries [= <-]. reflexivity.
Defined.

(** C5 as stated fails on a value that is not an integer: the load
    raises instead of falling back to 30000. *)
Lemma flush_timeout_unparseable_raises :
  int_of_str (H := Demo.interpreter) "abc" = None
  /\ module_load (H := Demo.interpreter) {[ timeout_variable := "abc" ]}
     = Raise ValueError
  /\ module_load (H := Demo.interpreter) {[ timeout_variable := "abc" ]}
     <> Return (mkModuleState 30000).
Proof. split; [reflexivity | split; [reflexivity | discriminate]]. Qed.

Lemma flush_timeout_at_load_witness :
  module_load (H := Demo.interpreter) ∅ = Return (mkModuleState 30000)
  /\ module_load (H := Demo.interpreter) {[ timeout_variable := "5000" ]}
     = Return (mkModuleState 5000)
  /\ module_load (H := Demo.interpreter) {[ timeout_variable := "abc" ]}
     = Raise ValueError.
Proof.
  split; [|split].
  - apply (proj1 (flush_timeout_at_load (api := Demo.api)
                    (interp := Demo.interpreter) ∅)). reflexivity.
  - apply (proj1 (proj2 (flush_timeout_at_load (api := Demo.api)
                           (interp := Demo.interpreter)
                           {[ timeout_variable := "5000" ]})) "5000" 5000);
      reflexivity.
  - apply (proj1 (proj2 (proj2 (flush_timeout_at_load (api := Demo.api)
                                  (interp := Demo.interpreter)
                                  {[ timeout_variable := "abc" ]}))) "abc");
      reflexivity.
Defined.

(** C6 as stated fails when the handler is renamed after decoration:
    the next call of the decorated function starts a span under the new
    name, not under the name of decoration time. *)
Lemma span_name_follows_rename :
  let decorated := otel_handler (api := Demo.api) Demo.loaded 0 in
  let args := [Demo.event_with_headers; Demo.lambda_context] in
  span_names (trace (decorated Demo.store Demo.env_lambda args []))
    = ["app.lambda_handler"]
  /\ span_names (trace (decorated (set_name Demo.store 0 "renamed")
                          Demo.env_lambda args []))
     = ["app.renamed"]
  /\ span_names (trace (decorated (set_name Demo.store 0 "renamed")
                          Demo.env_lambda args []))
     <> span_names (trace (decorated Demo.store Demo.env_lambda args [])).
Proof. vm_compute. split; [reflexivity | split; [reflexivity | discriminate]]. Qed.

Lemma span_name_at_call_time_witness :
  span_names (trace (otel_handler (api := Demo.api) Demo.loaded 0 Demo.store
                       Demo.env_lambda [Demo.event_with_headers] []))
  = ["app.lambda_handler"].
Proof.
  apply (proj1 (span_name_at_call_time (api := Demo.api) Demo.loaded 0
                  Demo.store Demo.env_lambda [Demo.event_with_headers] []
                  Demo.event_with_headers Demo.header_context
                  eq_refl ltac:(vm_compute; reflexivity))).
Defined.

(** C7 as stated fails on a call with the event alone under a recording
    span: no attribute is set and the handler is never called, where the
    claim asks for four attribute calls before the handler is invoked. *)
Lemma four_attributes_need_context :
  let t := trace (otel_wrapper (api := Demo.api) Demo.loaded 0 Demo.store
                    Demo.env_lambda [Demo.event_with_headers] []) in
  span_records (api := Demo.api) t = true
  /\ set_attribute_calls t = []
  /\ handler_calls t = [].
Proof. vm_compute. auto. Qed.

Lemma faas_attributes_when_recording_witness :
  let t := trace (otel_wrapper (api := Demo.api) Demo.loaded 0 Demo.store
                    Demo.env_lambda
                    [Demo.event_with_headers; Demo.lambda_context] []) in
  set_attribute_calls (before_handler t)
  = [SetAttribute "faas.execution" (PyStr "c6af9ac6-7b61-11e6-9a41-93e8deadbeef");
     SetAttribute "faas.id"
       (PyStr "arn:aws:lambda:us-east-1:123456789012:function:demo");
     SetAttribute "faas.name" (PyStr "demo");
     SetAttribute "faas.version" (PyStr "$LATEST")]
  /\ set_attribute_calls (after_handler t) = []
  /\ handler_calls t
     = [CallHandler [Demo.event_with_headers; Demo.lambda_context] []].
Proof.
  apply (proj2 (faas_attributes_when_recording (api := Demo.api) Demo.loaded 0
                  Demo.store Demo.env_lambda
                  [Demo.event_with_headers; Demo.lambda_context] [])
           ltac:(vm_compute; reflexivity) Demo.lambda_context);
    reflexivity.
Defined.

(** C8 as stated fails on a context without an ARN under a recording
    span: [AttributeError] leaves the wrapper and the handler is never
    called. *)
Lemma missing_arn_aborts_invocation :
  let run := otel_wrapper (api := Demo.api) Demo.loaded 0 Demo.store
               Demo.env_lambda
               [Demo.event_with_headers; Demo.context_without_arn] [] in
  span_records (api := Demo.api) (trace run) = true
  /\ __call__ (Demo.store 0) [Demo.event_with_headers; Demo.context_without_arn] []
     = Return (PyStr "200 OK")
  /\ outcome run = Raise AttributeError
  /\ handler_calls (trace run) = [].
Proof. vm_compute. auto. Qed.

Lemma unguarded_context_access_witness :
  let run := otel_wrapper (api := Demo.api) Demo.loaded 0 Demo.store
               Demo.env_lambda
               [Demo.event_with_headers; Demo.context_without_arn] [] in
  outcome run = Raise AttributeError
  /\ handler_calls (trace run) = []
  /\ set_attribute_calls (trace run)
     = [SetAttribute "faas.execution"
          (PyStr "c6af9ac6-7b61-11e6-9a41-93e8deadbeef")].
Proof.
  apply (unguarded_context_access (api := Demo.api) Demo.loaded 0 Demo.store
           Demo.env_lambda
           [Demo.event_with_headers; Demo.context_without_arn] []
           Demo.context_without_arn);
    vm_compute; reflexivity.
Defined.

(** C9 as stated fails when the function-name variables are unset: the
    span records, and [None] is passed for ["faas.name"] and
    ["faas.version"]. *)
Lemma faas_name_none_when_unset :
  let t := trace (otel_wrapper (api := Demo.api) Demo.loaded 0 Demo.store
                    Demo.env_xray_sampled
                    [Demo.event_without_headers; Demo.lambda_context] []) in
  span_records (api := Demo.api) t = true
  /\ In (SetAttribute "faas.name" PyNone) t
  /\ In (SetAttribute "faas.version" PyNone) t
  /\ forallb is_str (attribute_values t) = false.
Proof. vm_compute. intuition. Qed.

Lemma faas_attribute_values_witness :
  attribute_values
    (trace (otel_wrapper (api := Demo.api) Demo.loaded 0 Demo.store
              Demo.env_xray_sampled
              [Demo.event_without_headers; Demo.lambda_context] []))
  = [PyStr "c6af9ac6-7b61-11e6-9a41-93e8deadbeef";
     PyStr "arn:aws:lambda:us-east-1:123456789012:function:demo";
     PyNone; PyNone].
Proof.
  apply (proj1 (faas_attribute_values (api := Demo.api) Demo.loaded 0 Demo.store
                  Demo.env_xray_sampled
                  [Demo.event_without_headers; Demo.lambda_context] []
                  Demo.lambda_context _ _
                  ltac:(vm_compute; reflexivity) eq_refl eq_refl eq_refl)).
Defined.

Lemma wrapper_index_errors_witness :
  let run := otel_wrapper (api := Demo.api) Demo.loaded 0 Demo.store
               Demo.env_xray_sampled [Demo.event_without_headers] [] in
  outcome run = Raise IndexError
  /\ handler_calls (trace run) = []
  /\ set_attribute_calls (trace run) = [].
Proof.
  apply (proj2 (wrapper_index_errors (api := Demo.api) Demo.loaded 0 Demo.store
                  Demo.env_xray_sampled []) Demo.event_without_headers).
  vm_compute. reflexivity.
Defined.

(** X5 and X6 on a provider without [force_flush]: the handler returns
    and the wrapper raises. *)
Example returning_handler_without_force_flush :
  let run := otel_wrapper (api := Demo.api_default_provider) Demo.loaded 0
               Demo.store Demo.env_lambda
               [Demo.event_with_headers; Demo.lambda_context] [] in
  handler_calls (trace run)
    = [CallHandler [Demo.event_with_headers; Demo.lambda_context] []]
  /\ outcome run = Raise AttributeError
  /\ flush_calls (trace run) = [].
Proof. vm_compute. auto. Qed.

Lemma handler_runs_inside_span_witness :
  let t := trace (otel_wrapper (api := Demo.api) Demo.loaded 0 Demo.store
                    Demo.env_lambda
                    [Demo.event_with_headers; Demo.lambda_context] []) in
  List.length (started_spans (before_handler t)) = 1%nat
  /\ span_ends (before_handler t) = []
  /\ after_handler t = [EndSpan; ForceFlush 30000].
Proof.
  apply (handler_runs_inside_span (api := Demo.api) Demo.loaded 0 Demo.store
           Demo.env_lambda [Demo.event_with_headers; Demo.lambda_context] []).
  vm_compute. discriminate.
Defined.

Lemma wrapper_reads_three_variables_witness :
  otel_wrapper (api := Demo.api) Demo.loaded 0 Demo.store
    (<[ timeout_variable := "1" ]> Demo.env_lambda)
    [Demo.event_with_headers; Demo.lambda_context] []
  = otel_wrapper (api := Demo.api) Demo.loaded 0 Demo.store Demo.env_lambda
      [Demo.event_with_headers; Demo.lambda_context] [].
Proof.
  apply (wrapper_reads_three_variables (api := Demo.api) Demo.loaded 0
           Demo.store Demo.env_lambda
           [Demo.event_with_headers; Demo.lambda_context] []
           (<[ timeout_variable := "1" ]> Demo.env_lambda));
    vm_compute; reflexivity.
Defined.

Lemma extract_failure_aborts_invocation_witness :
  let run := otel_wrapper (api := Demo.api) Demo.loaded 0 Demo.store
               Demo.env_lambda
               [PyDict [("headers", PyNone)]; Demo.lambda_context] [] in
  outcome run = Raise AttributeError
  /\ started_spans (trace run) = []
  /\ handler_calls (trace run) = []
  /\ flush_calls (trace run) = [].
Proof.
  apply (extract_failure_aborts_invocation (api := Demo.api) Demo.loaded 0
           Demo.store Demo.env_lambda (PyDict [("headers", PyNone)])
           [Demo.lambda_context] [] AttributeError);
    vm_compute; reflexivity.
Defined.

Lemma context_unread_when_not_recording_witness :
  let run := otel_wrapper (api := Demo.api) Demo.loaded 0 Demo.store
               Demo.env_lambda [Demo.event_without_headers] [] in
  handler_calls (trace run) = [CallHandler [Demo.event_without_headers] []]
  /\ set_attribute_calls (trace run) = []
  /\ outcome run = Return (PyStr "200 OK").
Proof.
  apply (context_unread_when_not_recording (api := Demo.api) Demo.loaded 0
           Demo.store Demo.env_lambda Demo.event_without_headers [] ∅);
    vm_compute; reflexivity.
Defined.
